(** * pytorch_eo: the image segmentation task

    A shallow embedding of [pytorch_eo/tasks/segmentation/ImageSegmentation.py]
    and the properties of its constructor and of its three methods
    [compute_loss], [compute_metrics] and [predict].

    The tensor framework is a parameter of the development: tensors, devices,
    models and hyper-parameter values are abstract types, and the framework's
    functions ([Tensor.to], [torch.sigmoid], the forward pass of the base
    task, the default loss and the [iou] metric) are the methods of the class
    [Framework]. *)

From stdpp Require Import strings functions gmap fin_maps list.

(** ** Exceptions

    A Python call either returns a value or raises.  The only exception the
    file can raise by itself is the [KeyError] of a failed subscript; every
    other exception comes out of a framework function and is carried as it
    is. *)

Inductive exn (E : Type) : Type :=
| KeyError (k : string)
| Raised (e : E).
Arguments KeyError {E} k.
Arguments Raised {E} e.

Inductive result (E A : Type) : Type :=
| Ok (a : A)
| Raise (x : exn E).
Arguments Ok {E A} a.
Arguments Raise {E A} x.

Definition fails {E A} (r : result E A) : Prop :=
  match r with Ok _ => False | Raise _ => True end.

#[global] Instance result_ret {E} : MRet (result E) := λ A a, Ok a.
#[global] Instance result_bind {E} : MBind (result E) := λ A B k r,
  match r with Ok a => k a | Raise x => Raise x end.
#[global] Instance result_fmap {E} : FMap (result E) := λ A B f r,
  match r with Ok a => Ok (f a) | Raise x => Raise x end.

(** ** Python dictionaries that the code iterates over

    A [dict] keeps its items in insertion order and binds a key once.  The
    order is observable where the code calls a function that may raise on
    every item, so such a dictionary is a list of items; [wf] is the
    invariant that every dictionary object satisfies. *)

Module PyDict.
Section dict.
Context {V : Type}.

Definition dict : Type := list (string * V).

Definition empty : dict := [].

Definition items (d : dict) : list (string * V) := d.

Definition keys (d : dict) : list string := d.*1.

(** [d[k]] as a lookup: the value bound to [k], if any. *)
Fixpoint getitem (k : string) (d : dict) : option V :=
  match d with
  | [] => None
  | (k', v) :: d' => if decide (k = k') then Some v else getitem k d'
  end.

(** [d[k] = v]: rebinds [k] in place, or appends a new item. *)
Fixpoint setitem (k : string) (v : V) (d : dict) : dict :=
  match d with
  | [] => [(k, v)]
  | (k', v') :: d' =>
      if decide (k = k') then (k, v) :: d' else (k', v') :: setitem k v d'
  end.

Definition wf (d : dict) : Prop := NoDup (keys d).

End dict.
Arguments dict V : clear implicits.
End PyDict.

Abbreviation dict := PyDict.dict.

(** ** Dictionaries of tensors

    The targets and the batches are read by key, or copied entry by entry
    through functions that do not raise: they are finite maps.  [y[k]]
    raises [KeyError] on a missing key. *)
Definition subscript {E V} (y : gmap string V) (k : string) : result E V :=
  match y !! k with
  | Some v => Ok v
  | None => Raise (KeyError k)
  end.

(** Object identities of the dictionaries held in the store. *)
Definition loc : Type := nat.

Section ImageSegmentation.

Context {Tensor Device Model HVal E : Type}.

(** A loss or a metric: called on the prediction and the target. *)
Definition criterion : Type := Tensor → Tensor → result E Tensor.

(** The object, with the six attributes the constructor hands to the base
    task and the two attributes of the framework's module that [predict]
    reads or sets: [device] and the [training] flag.  The model and, when it
    is a module, the loss function are child modules of the task and have a
    mode of their own; [self.metrics] is a plain dictionary (its default
    holds a function), so what it holds is no child of the task. *)
Record Task : Type := mkTask {
  model : Model;
  hparams : gmap string HVal;
  inputs : list string;
  outputs : list string;
  loss_fn : criterion;
  metrics : dict criterion;
  device : Device;
  training : bool;
}.

Definition set_outputs (o : list string) (t : Task) : Task :=
  {| model := model t; hparams := hparams t; inputs := inputs t;
     outputs := o; loss_fn := loss_fn t; metrics := metrics t;
     device := device t; training := training t |}.

(** The framework, as the file uses it: [v.to(device)] and [torch.sigmoid],
    functions from tensors to tensors; [self(x)], the forward pass of the
    base task on a dictionary of inputs, which runs the stored model, may
    raise, and depends on the task, so on its mode and on the one of its
    model; the two defaults of the constructor
    ([torch.nn.BCEWithLogitsLoss()] and
    [pytorch_eo.metrics.segmentation.iou]); the strings among the
    hyper-parameter values; and [child.train(mode)], which puts a child
    module in training or evaluation mode: [train_model] on the model,
    [train_criterion] on the loss function (a loss that is a plain function
    is no child and stays as it is).  The mode a module ends in is the last
    one it was put in. *)
Class Framework : Type := {
  to : Tensor → Device → Tensor;
  sigmoid : Tensor → Tensor;
  forward : Task → gmap string Tensor → result E Tensor;
  BCEWithLogitsLoss : criterion;
  iou : criterion;
  hstr : string → HVal;
  train_model : bool → Model → Model;
  train_criterion : bool → criterion → criterion;
  train_model_last b b' m :
    train_model b (train_model b' m) = train_model b m;
  train_criterion_last b b' l :
    train_criterion b (train_criterion b' l) = train_criterion b l;
}.

Context `{!Framework}.

(** [self.train(b)], the framework's [Module.train]: it sets the flag of the
    task and calls [train(b)] on each child module. *)
Definition set_training (b : bool) (t : Task) : Task :=
  {| model := train_model b (model t); hparams := hparams t;
     inputs := inputs t; outputs := outputs t;
     loss_fn := train_criterion b (loss_fn t); metrics := metrics t;
     device := device t; training := b |}.

(** *** The constructor

    [BaseTask_init] stands for [BaseTask.__init__], which receives the six
    values; [inputs] and [outputs] arrive with the defaults of the signature
    already filled in. *)

Definition default_inputs : list string := ["image"].
Definition default_outputs : list string := ["mask"].

Definition __init__ {T : Type}
    (BaseTask_init : Model → gmap string HVal → list string → list string →
                     criterion → dict criterion → T)
    (model : Model) (hparams : option (gmap string HVal))
    (inputs outputs : list string)
    (loss_fn : option criterion) (metrics : option (dict criterion)) : T :=
  let loss_fn :=
    match loss_fn with None => BCEWithLogitsLoss | Some l => l end in
  let hparams :=
    match hparams with
    | None => {[ "optimizer" := hstr "Adam" ]}
    | Some h => h
    end in
  let metrics :=
    match metrics with None => [("iou", iou)] | Some m => m end in
  BaseTask_init model hparams inputs outputs loss_fn metrics.

(** *** The state the methods run in

    The task itself, the global gradient mode of the framework, and the
    dictionaries of tensors that the caller and [predict] hold by
    reference: [store] gives the contents of each object, [next] is the
    first identity that is not yet in use. *)
Record State : Type := mkState {
  self : Task;
  grad_enabled : bool;
  store : loc → gmap string Tensor;
  next : loc;
}.

Definition M (A : Type) : Type := State → result E A * State.

#[export] Instance M_ret : MRet M := λ A a σ, (Ok a, σ).
#[export] Instance M_bind : MBind M := λ A B k m σ,
  match m σ with
  | (Ok a, σ') => k a σ'
  | (Raise x, σ') => (Raise x, σ')
  end.

Definition lift {A} (r : result E A) : M A := λ σ, (r, σ).

Definition get_self : M Task := λ σ, (Ok (self σ), σ).

Definition load (l : loc) : M (gmap string Tensor) := λ σ, (Ok (store σ l), σ).

(** A new dictionary object with the given contents. *)
Definition new_dict (d : gmap string Tensor) : M loc := λ σ,
  (Ok (next σ),
   {| self := self σ; grad_enabled := grad_enabled σ;
      store := <[next σ := d]> (store σ); next := S (next σ) |}).

Definition set_self (t : Task) (σ : State) : State :=
  {| self := t; grad_enabled := grad_enabled σ;
     store := store σ; next := next σ |}.

Definition set_grad_enabled (b : bool) (σ : State) : State :=
  {| self := self σ; grad_enabled := b; store := store σ; next := next σ |}.

(** [self.eval()], the framework's [Module.eval]: it is [self.train(False)],
    so it switches the task and its child modules to evaluation mode. *)
Definition eval : M unit := λ σ,
  (Ok (), set_self (set_training false (self σ)) σ).

(** [with torch.no_grad(): body]: the gradient mode is switched off on
    entry and put back on exit, also when [body] raises. *)
Definition no_grad {A} (body : M A) : M A := λ σ,
  let prev := grad_enabled σ in
  let '(r, σ') := body (set_grad_enabled false σ) in
  (r, set_grad_enabled prev σ').

(** [self(x)] *)
Definition call_self (x : loc) : M Tensor := λ σ,
  (forward (self σ) (store σ x), σ).

(** *** The methods *)

Definition compute_loss (y_hat : Tensor) (y : gmap string Tensor) : M Tensor :=
  t ← get_self;
  mask ← lift (subscript y "mask");
  lift (loss_fn t y_hat mask).

(** The dictionary comprehension of [compute_metrics]: for each item of
    [self.metrics], in order, the value expression is evaluated (the
    subscript, then the call) and the item is added to the result. *)
Fixpoint metrics_comprehension (y_hat : Tensor) (y : gmap string Tensor)
    (its : list (string * criterion)) (acc : dict Tensor)
    : result E (dict Tensor) :=
  match its with
  | [] => Ok acc
  | (metric_name, metric) :: its' =>
      mask ← subscript y "mask";
      v ← metric y_hat mask;
      metrics_comprehension y_hat y its' (PyDict.setitem metric_name v acc)
  end.

(** What the comprehension has to bind for one item of [self.metrics]: the
    same name, to the value the metric returns. *)
Definition metric_item (y_hat mask : Tensor)
    (it : string * criterion) (kv : string * Tensor) : Prop :=
  kv.1 = it.1 ∧ it.2 y_hat mask = Ok kv.2.

Definition compute_metrics (y_hat : Tensor) (y : gmap string Tensor)
    : M (dict Tensor) :=
  t ← get_self;
  lift (metrics_comprehension y_hat y (PyDict.items (metrics t)) PyDict.empty).

Definition predict (batch : loc) : M Tensor :=
  _ ← eval;
  no_grad (
    t ← get_self;
    b ← load batch;
    x ← new_dict ((λ v, to v (device t))
                    <$> filter (λ kv : string * Tensor, kv.1 ∈ inputs t) b);
    y_hat ← call_self x;
    mret (sigmoid y_hat)).

(** *** Inference, as the specification words it

    Filter the inputs, move them to the device, run the model, apply the
    sigmoid.  The model is run by the task, which [predict] has put in
    evaluation mode, model included. *)

Definition filter_inputs (t : Task) (batch : gmap string Tensor)
    : gmap string Tensor :=
  filter (λ kv : string * Tensor, kv.1 ∈ inputs t) batch.

Definition move_to_device (t : Task) (x : gmap string Tensor)
    : gmap string Tensor :=
  (λ v, to v (device t)) <$> x.

Definition run_model (t : Task) (x : gmap string Tensor) : result E Tensor :=
  forward (set_training false t) x.

Definition apply_sigmoid (y_hat : result E Tensor) : result E Tensor :=
  sigmoid <$> y_hat.

Definition inference_spec (t : Task) (batch : gmap string Tensor)
    : result E Tensor :=
  apply_sigmoid (run_model t (move_to_device t (filter_inputs t batch))).

End ImageSegmentation.

Arguments Task : clear implicits.
Arguments State : clear implicits.
Arguments Framework : clear implicits.
Arguments criterion : clear implicits.

(** ** A small framework to run the methods on

    Tensors and devices are integers: moving to a device adds its number,
    the model is its own mode and multiplies the image by ten in evaluation
    mode, the loss is a difference and the [iou] raises on an empty target;
    both are plain functions, which have no mode. *)

Module Demo.

Definition difference : criterion Z string := λ a b, Ok (a - b)%Z.

Definition ratio : criterion Z string := λ a b,
  if decide (b = 0%Z) then Raise (Raised "empty target") else Ok (a / b)%Z.

Definition run (t : Task Z Z bool string string) (x : gmap string Z)
    : result string Z :=
  match x !! "image" with
  | Some v => Ok (if model t then v else v * 10)%Z
  | None => Raise (Raised "no image")
  end.

#[global] Instance framework : Framework Z Z bool string string :=
  {| to := λ v d, (v + d)%Z;
     sigmoid := λ v, (2 * v + 1)%Z;
     forward := run;
     BCEWithLogitsLoss := difference;
     iou := ratio;
     hstr := id;
     train_model := λ b _, b;
     train_criterion := λ _ l, l;
     train_model_last := λ _ _ _, eq_refl;
     train_criterion_last := λ _ _ _, eq_refl |}.

Definition task (ms : dict (criterion Z string)) : Task Z Z bool string string :=
  {| model := true; hparams := {[ "optimizer" := "Adam" ]};
     inputs := ["image"]; outputs := ["mask"];
     loss_fn := difference; metrics := ms; device := 1%Z; training := true |}.

(** Two dictionaries in the store: a batch with an image and its mask, and
    one with the same image, another mask and one more entry. *)
Definition batch : gmap string Z := {[ "image" := 4%Z; "mask" := 2%Z ]}.

Definition other_batch : gmap string Z :=
  {[ "image" := 4%Z; "mask" := 7%Z; "date" := 9%Z ]}.

(** A target with the mask of [batch] and nothing else in common. *)
Definition target : gmap string Z := {[ "mask" := 2%Z; "date" := 9%Z ]}.

Definition two_metrics : dict (criterion Z string) :=
  [("iou", ratio); ("diff", difference)].

Definition state (ms : dict (criterion Z string)) : State Z Z bool string string :=
  {| self := task ms; grad_enabled := true;
     store := <[0 := batch]> (<[1 := other_batch]> (λ _, ∅)); next := 2 |}.

End Demo.

(** ** Properties *)

(** *** Dictionaries *)

Module PyDictFacts.
Import PyDict.
Section facts.
Context {V : Type}.
Implicit Types (d : dict V) (k : string) (v : V).

Lemma setitem_new k v d : k ∉ keys d → setitem k v d = d ++ [(k, v)].
Proof.
  induction d as [|[k' v'] d IH]; simpl; [done|].
  intros Hk. apply not_elem_of_cons in Hk as [Hne Hk].
  destruct (decide (k = k')) as [->|_]; [done|]. by rewrite IH.
Qed.

Lemma getitem_Some_elem k v d : getitem k d = Some v → (k, v) ∈ items d.
Proof.
  induction d as [|[k' v'] d IH]; simpl; [done|].
  destruct (decide (k = k')) as [->|_].
  - intros [= ->]. apply list_elem_of_here.
  - intros Hg. apply list_elem_of_further. by apply IH.
Qed.

Lemma elem_getitem_Some k v d : wf d → (k, v) ∈ items d → getitem k d = Some v.
Proof.
  unfold wf, items. induction d as [|[k' v'] d IH]; simpl.
  - by intros _ ?%elem_of_nil.
  - intros [Hk' Hd]%NoDup_cons [[= -> ->]|Hin]%elem_of_cons.
    + by rewrite decide_True.
    + rewrite decide_False; [by apply IH|].
      intros ->. apply Hk'. by apply (list_elem_of_fmap_2 fst) in Hin.
Qed.

Lemma getitem_None k d : getitem k d = None ↔ k ∉ keys d.
Proof.
  induction d as [|[k' v'] d IH]; simpl.
  - split; [intros _; apply not_elem_of_nil | done].
  - rewrite not_elem_of_cons. destruct (decide (k = k')) as [->|Hne].
    + split; [done | by intros [? _]].
    + rewrite IH. split; [done | by intros [_ ?]].
Qed.


End facts.
End PyDictFacts.

(** *** The comprehension of [compute_metrics] *)

Section comprehension.
Context `{F : Framework Tensor Device Model HVal E}.
Implicit Types (y_hat mask : Tensor) (y : gmap string Tensor).
Implicit Types (its : list (string * criterion Tensor E)).
Implicit Types (acc r vs : dict Tensor).

Lemma subscript_Some {V} (m : gmap string V) k v :
  m !! k = Some v → subscript (E:=E) m k = Ok v.
Proof. unfold subscript. by intros ->. Qed.

Lemma subscript_None {V} (m : gmap string V) k :
  m !! k = None → subscript (E:=E) m k = Raise (KeyError k).
Proof. unfold subscript. by intros ->. Qed.

Lemma metrics_comprehension_cons y_hat y mask name metric its acc :
  y !! "mask" = Some mask →
  metrics_comprehension y_hat y ((name, metric) :: its) acc =
    match metric y_hat mask with
    | Ok v => metrics_comprehension y_hat y its (PyDict.setitem name v acc)
    | Raise x => Raise x
    end.
Proof. intros Hm. simpl. by rewrite (subscript_Some _ _ _ Hm). Qed.

Lemma metrics_comprehension_Ok_inv y_hat y mask its acc r :
  y !! "mask" = Some mask →
  NoDup (PyDict.keys acc ++ PyDict.keys its) →
  metrics_comprehension y_hat y its acc = Ok r →
  ∃ vs, r = acc ++ vs ∧ Forall2 (metric_item y_hat mask) its vs.
Proof.
  intros Hm. revert acc. induction its as [|[name metric] its IH]; intros acc.
  - simpl. intros _ [= <-]. exists []. by rewrite app_nil_r.
  - rewrite (metrics_comprehension_cons _ _ _ _ _ _ _ Hm).
    intros Hnd. destruct (metric y_hat mask) as [v|x] eqn:Hv; [|done].
    assert (name ∉ PyDict.keys acc) as Hnew.
    { apply NoDup_app in Hnd as (_ & Hdisj & _). intros Hin.
      apply (Hdisj _ Hin). apply list_elem_of_here. }
    rewrite (PyDictFacts.setitem_new _ _ _ Hnew). intros Hr.
    destruct (IH (acc ++ [(name, v)])) as (vs & -> & Hvs); [|done|].
    { unfold PyDict.keys in *. rewrite fmap_app. simpl.
      by rewrite <-app_assoc. }
    exists ((name, v) :: vs). split; [by rewrite <-app_assoc|].
    by constructor.
Qed.

Lemma metrics_comprehension_returns y_hat y mask its acc :
  y !! "mask" = Some mask →
  Forall (λ it, ∃ v, it.2 y_hat mask = Ok v) its →
  ∃ r, metrics_comprehension y_hat y its acc = Ok r.
Proof.
  intros Hm Hall. revert acc.
  induction Hall as [|[name metric] its [v Hv] _ IH]; intros acc.
  - by exists acc.
  - rewrite (metrics_comprehension_cons _ _ _ _ _ _ _ Hm).
    simpl in Hv. rewrite Hv. apply IH.
Qed.

(** Without a mask the first item raises, so only the empty dictionary of
    metrics gets through. *)
Lemma metrics_comprehension_no_mask y_hat y its acc :
  y !! "mask" = None →
  metrics_comprehension y_hat y its acc =
    match its with [] => Ok acc | _ :: _ => Raise (KeyError "mask") end.
Proof.
  intros Hm. destruct its as [|[name metric] its]; [done|].
  simpl. by rewrite (subscript_None _ _ Hm).
Qed.

Lemma metrics_comprehension_fails y_hat y mask its acc :
  y !! "mask" = Some mask →
  fails (metrics_comprehension y_hat y its acc) ↔
  Exists (λ it, fails (it.2 y_hat mask)) its.
Proof.
  intros Hm. revert acc. induction its as [|[name metric] its IH]; intros acc.
  - simpl. by rewrite Exists_nil.
  - rewrite (metrics_comprehension_cons _ _ _ _ _ _ _ Hm), Exists_cons. simpl.
    destruct (metric y_hat mask) as [v|x]; simpl.
    + rewrite IH. split; [by right | by intros [[]|?]].
    + split; [by left | done].
Qed.

(** The exception that comes out is the one of the first metric that
    raises. *)
Lemma metrics_comprehension_first_raise y_hat y mask its1 name metric its2 acc x :
  y !! "mask" = Some mask →
  Forall (λ it, ∃ v, it.2 y_hat mask = Ok v) its1 →
  metric y_hat mask = Raise x →
  metrics_comprehension y_hat y (its1 ++ (name, metric) :: its2) acc = Raise x.
Proof.
  intros Hm Hall Hx. revert acc.
  induction Hall as [|[name1 metric1] its1 [v Hv] _ IH]; intros acc.
  - simpl app. rewrite (metrics_comprehension_cons _ _ _ _ _ _ _ Hm).
    by rewrite Hx.
  - simpl app. rewrite (metrics_comprehension_cons _ _ _ _ _ _ _ Hm).
    simpl in Hv. rewrite Hv. apply IH.
Qed.



Lemma metric_items_keys y_hat mask its vs :
  Forall2 (metric_item y_hat mask) its vs → PyDict.keys vs = PyDict.keys its.
Proof.
  unfold PyDict.keys.
  induction 1 as [|[name metric] [k v] its vs [Hk _] _ IH]; [done|].
  rewrite !fmap_cons. by f_equal.
Qed.

Lemma metric_items_getitem y_hat mask its vs name metric :
  Forall2 (metric_item y_hat mask) its vs →
  PyDict.getitem name its = Some metric →
  ∃ v, metric y_hat mask = Ok v ∧ PyDict.getitem name vs = Some v.
Proof.
  induction 1 as [|[name' metric'] [k v] its vs [Hk Hv] _ IH]; [done|].
  simpl in *. subst k. destruct (decide (name = name')) as [->|_]; [|done].
  intros [= ->]. by exists v.
Qed.

End comprehension.

(** *** The methods *)

Section properties.
Context `{F : Framework Tensor Device Model HVal E}.
Implicit Types (σ : State Tensor Device Model HVal E).
Implicit Types (t : Task Tensor Device Model HVal E).
Implicit Types (y_hat mask : Tensor) (y : gmap string Tensor) (batch : loc).

Lemma compute_loss_run σ y_hat y :
  compute_loss y_hat y σ =
    (match y !! "mask" with
     | Some mask => loss_fn (self σ) y_hat mask
     | None => Raise (KeyError "mask")
     end, σ).
Proof.
  unfold compute_loss, mbind, M_bind, get_self, lift, subscript.
  destruct (y !! "mask") as [mask|]; [|done].
  by destruct (loss_fn (self σ) y_hat mask).
Qed.

Lemma compute_metrics_run σ y_hat y :
  compute_metrics y_hat y σ =
    (metrics_comprehension y_hat y (metrics (self σ)) [], σ).
Proof. done. Qed.

Lemma set_training_last (b b' : bool) t :
  set_training b (set_training b' t) = set_training b t.
Proof.
  unfold set_training. simpl.
  by rewrite train_model_last, train_criterion_last.
Qed.

(** The state [predict] ends in: the task in evaluation mode, the gradient
    mode as it was, and one more dictionary, the one handed to the model. *)
Lemma predict_run σ batch :
  predict batch σ =
    (inference_spec (self σ) (store σ batch),
     {| self := set_training false (self σ);
        grad_enabled := grad_enabled σ;
        store := <[next σ :=
                     move_to_device (self σ)
                       (filter_inputs (self σ) (store σ batch))]> (store σ);
        next := S (next σ) |}).
Proof.
  unfold predict, inference_spec, apply_sigmoid, run_model.
  unfold mbind, M_bind, eval, no_grad, get_self, load, new_dict, call_self.
  simpl. rewrite fn_lookup_insert.
  unfold move_to_device, filter_inputs.
  by destruct (forward _ _).
Qed.

(** C1. With a target that has the key ['mask'], [compute_loss] returns what
    the stored loss function returns on the prediction and [y['mask']]: the
    value or the exception, untouched, and the state stays as it was. *)
Theorem compute_loss_forwards σ y_hat y mask :
  y !! "mask" = Some mask →
  compute_loss y_hat y σ = (loss_fn (self σ) y_hat mask, σ).
Proof. intros Hm. by rewrite compute_loss_run, Hm. Qed.

(** C2. With a target that has the key ['mask'], a dictionary that
    [compute_metrics] returns has the keys of [self.metrics] (in the same
    order) and binds each name to what its metric returns on the prediction
    and [y['mask']]; and it does return one when every metric returns. *)
Theorem compute_metrics_names_values σ y_hat y mask :
  PyDict.wf (metrics (self σ)) →
  y !! "mask" = Some mask →
  (∀ r, (compute_metrics y_hat y σ).1 = Ok r →
     PyDict.keys r = PyDict.keys (metrics (self σ)) ∧
     ∀ name metric,
       PyDict.getitem name (metrics (self σ)) = Some metric →
       ∃ v, metric y_hat mask = Ok v ∧ PyDict.getitem name r = Some v) ∧
  ((∀ name metric, (name, metric) ∈ PyDict.items (metrics (self σ)) →
      ∃ v, metric y_hat mask = Ok v) →
   ∃ r, compute_metrics y_hat y σ = (Ok r, σ)).
Proof.
  intros Hwf Hm. rewrite compute_metrics_run. simpl. split.
  - intros r Hr.
    destruct (metrics_comprehension_Ok_inv y_hat y mask _ [] r Hm Hwf Hr)
      as (vs & -> & Hvs).
    split; [by apply metric_items_keys with y_hat mask|].
    intros name metric. by apply metric_items_getitem.
  - intros Hall.
    destruct (metrics_comprehension_returns y_hat y mask (metrics (self σ)) [] Hm)
      as [r Hr]; [|by exists r; rewrite Hr].
    apply Forall_forall. intros [name metric]. apply Hall.
Qed.

(** C3. [predict] returns the sigmoid of the model's output on the entries of
    the batch whose key is in [self.inputs], each moved to the task's device:
    filter, move, run the model, apply the sigmoid.  When the model raises,
    so does [predict]. *)
Theorem predict_is_inference σ batch :
  (predict batch σ).1 = inference_spec (self σ) (store σ batch) ∧
  inference_spec (self σ) (store σ batch) =
    sigmoid <$>
      forward (set_training false (self σ))
        ((λ v, to v (device (self σ))) <$>
           filter (λ kv : string * Tensor, kv.1 ∈ inputs (self σ))
             (store σ batch)).
Proof. by rewrite predict_run. Qed.

(** C4. The constructor replaces a [loss_fn], [hparams] or [metrics] that is
    [None] by [BCEWithLogitsLoss()], [{'optimizer': 'Adam'}] and
    [{'iou': iou}], leaves any other argument as it is, and hands the six
    values to the base task. *)
Theorem init_assembles {T}
    (base : Model → gmap string HVal → list string → list string →
            criterion Tensor E → dict (criterion Tensor E) → T)
    m (hp : option (gmap string HVal)) ins outs
    (lf : option (criterion Tensor E)) (ms : option (dict (criterion Tensor E))) :
  __init__ base m hp ins outs lf ms =
    base m (default {[ "optimizer" := hstr "Adam" ]} hp) ins outs
      (default BCEWithLogitsLoss lf) (default [("iou", iou)] ms).
Proof. by destruct hp, lf, ms. Qed.

(** C5, as the code has it.  [compute_loss] raises exactly when the target
    has no ['mask'] or the loss function raises on the prediction and
    [y['mask']].  [compute_metrics] evaluates [y['mask']] once per metric:
    it raises exactly when [self.metrics] is not empty and either the target
    has no ['mask'] or one of the metrics raises.  So with a mask and
    functions that return, neither raises. *)
Theorem failure_conditions σ y_hat y :
  (fails (compute_loss y_hat y σ).1 ↔
     y !! "mask" = None ∨
     ∃ mask, y !! "mask" = Some mask ∧ fails (loss_fn (self σ) y_hat mask)) ∧
  (fails (compute_metrics y_hat y σ).1 ↔
     metrics (self σ) ≠ [] ∧
     (y !! "mask" = None ∨
      ∃ mask, y !! "mask" = Some mask ∧
        ∃ name metric, (name, metric) ∈ PyDict.items (metrics (self σ)) ∧
                       fails (metric y_hat mask))).
Proof.
  rewrite compute_loss_run, compute_metrics_run. simpl. split.
  - destruct (y !! "mask") as [mask|] eqn:Hm; simpl.
    + split; [intros Hf; right; by exists mask|].
      by intros [|(mask' & [= <-] & Hf)].
    + split; [by left | done].
  - destruct (y !! "mask") as [mask|] eqn:Hm.
    + rewrite (metrics_comprehension_fails _ _ _ _ _ Hm), Exists_exists.
      split.
      * intros ([name metric] & Hin & Hf). split.
        { intros Hnil. rewrite Hnil in Hin. by apply elem_of_nil in Hin. }
        right. exists mask. split; [done|]. by exists name, metric.
      * intros (_ & [|(mask' & [= <-] & name & metric & Hin & Hf)]); [done|].
        by exists (name, metric).
    + rewrite (metrics_comprehension_no_mask _ _ _ _ Hm).
      destruct (metrics (self σ)) as [|it its]; simpl.
      * split; [done | by intros [? _]].
      * split; [by intros _; split; [|left] | done].
Qed.

(** C6. [self.outputs] plays no part in [compute_loss] and
    [compute_metrics]: on a task that differs only there they return the
    same value or raise the same exception, and with a target that only has
    the key listed in [outputs] the subscript ['mask'] still raises. *)
Theorem outputs_unused σ o y_hat y (label : Tensor) :
  (compute_loss y_hat y (set_self (set_outputs o (self σ)) σ)).1 =
    (compute_loss y_hat y σ).1 ∧
  (compute_metrics y_hat y (set_self (set_outputs o (self σ)) σ)).1 =
    (compute_metrics y_hat y σ).1 ∧
  (compute_loss y_hat {[ "label" := label ]}
     (set_self (set_outputs ["label"] (self σ)) σ)).1 = Raise (KeyError "mask").
Proof. by rewrite !compute_loss_run, !compute_metrics_run. Qed.

(** C7. Two targets with the same ['mask'] entry (or both without one) give
    the same loss and the same metrics, whatever else they hold. *)
Theorem only_mask_matters σ y_hat (y1 y2 : gmap string Tensor) :
  y1 !! "mask" = y2 !! "mask" →
  compute_loss y_hat y1 σ = compute_loss y_hat y2 σ ∧
  compute_metrics y_hat y1 σ = compute_metrics y_hat y2 σ.
Proof.
  intros Hm. rewrite !compute_loss_run, !compute_metrics_run, Hm.
  split; [done|]. f_equal.
  generalize (@nil (string * Tensor)).
  induction (metrics (self σ)) as [|[name metric] its IH]; intros acc; [done|].
  simpl. unfold subscript. rewrite Hm.
  destruct (y2 !! "mask") as [mask|]; [|done]. simpl.
  destruct (metric y_hat mask); [apply IH | done].
Qed.


(** C9. Two batches that agree on the keys of [self.inputs] give the same
    prediction, and the dictionary that [predict] hands to the model has no
    other key. *)
Theorem predict_ignores_other_entries σ1 σ2 (b1 b2 : loc) :
  self σ1 = self σ2 →
  (∀ k, k ∈ inputs (self σ1) → store σ1 b1 !! k = store σ2 b2 !! k) →
  (predict b1 σ1).1 = (predict b2 σ2).1 ∧
  ∀ k, k ∉ inputs (self σ1) → store (predict b1 σ1).2 (next σ1) !! k = None.
Proof.
  intros Hself Hagree. rewrite !predict_run. simpl. split.
  - rewrite <-Hself. unfold inference_spec. do 3 f_equal.
    unfold filter_inputs. apply map_eq. intros k.
    rewrite !map_lookup_filter.
    destruct (decide (k ∈ inputs (self σ1))) as [Hin|Hout].
    + by rewrite (Hagree k Hin).
    + destruct (store σ1 b1 !! k), (store σ2 b2 !! k); simpl;
        by rewrite ?option_guard_False.
  - intros k Hout. rewrite fn_lookup_insert.
    unfold move_to_device, filter_inputs.
    rewrite lookup_fmap, map_lookup_filter.
    destruct (store σ1 b1 !! k); simpl; by rewrite ?option_guard_False.
Qed.

(** C10. [predict] leaves the batch as it is: the dictionary it is given
    holds the same entries afterwards, the device-placed inputs go into a
    new one. *)
Theorem predict_keeps_batch σ batch :
  batch < next σ →
  store (predict batch σ).2 batch = store σ batch.
Proof.
  intros Hlt. rewrite predict_run. simpl.
  apply fn_lookup_insert_ne. lia.
Qed.

End properties.

(** *** The methods on the small framework *)

Example predict_demo :
  (predict 0 (Demo.state [])).1 = Ok 101%Z ∧
  store (predict 0 (Demo.state [])).2 2 = {[ "image" := 5%Z ]}.
Proof. split; [by vm_compute|]. rewrite predict_run. by vm_compute. Qed.

Example compute_metrics_demo :
  (compute_metrics 6%Z Demo.batch (Demo.state Demo.two_metrics)).1 =
    Ok [("iou", 3%Z); ("diff", 4%Z)].
Proof. by vm_compute. Qed.

Example init_demo :
  __init__ (λ m hp ins outs lf ms, (m, hp, ins, outs, lf 6%Z 2%Z, PyDict.keys ms))
    true None default_inputs default_outputs None None =
  (true, {[ "optimizer" := "Adam" ]}, ["image"], ["mask"], Ok 4%Z, ["iou"]).
Proof. reflexivity. Qed.

Lemma compute_loss_forwards_witness :
  Demo.batch !! "mask" = Some 2%Z ∧
  compute_loss 5%Z Demo.batch (Demo.state []) = (Ok 3%Z, Demo.state []).
Proof.
  split; [reflexivity|].
  apply (compute_loss_forwards (Demo.state []) 5%Z Demo.batch 2%Z).
  reflexivity.
Defined.

Lemma compute_metrics_names_values_witness :
  PyDict.wf (metrics (self (Demo.state Demo.two_metrics))) ∧
  Demo.batch !! "mask" = Some 2%Z ∧
  ∃ r, compute_metrics 6%Z Demo.batch (Demo.state Demo.two_metrics) =
         (Ok r, Demo.state Demo.two_metrics) ∧
       PyDict.keys r = ["iou"; "diff"] ∧
       ∃ v, Demo.ratio 6%Z 2%Z = Ok v ∧ PyDict.getitem "iou" r = Some v.
Proof.
  set (σ := Demo.state Demo.two_metrics).
  assert (PyDict.wf (metrics (self σ))) as Hwf.
  { unfold PyDict.wf. simpl. apply (bool_decide_unpack _). by vm_compute. }
  assert (Demo.batch !! "mask" = Some 2%Z) as Hm by reflexivity.
  split; [exact Hwf|]. split; [exact Hm|].
  destruct (compute_metrics_names_values σ 6%Z Demo.batch 2%Z Hwf Hm)
    as [Hinv Hret].
  destruct Hret as [r Hr].
  { intros name metric [[= -> ->]|[[= -> ->]|Hin%elem_of_nil]%elem_of_cons]%elem_of_cons;
      [by eexists | by eexists | done]. }
  exists r. split; [exact Hr|].
  destruct (Hinv r) as [Hkeys Hvals]; [by rewrite Hr|].
  split; [exact Hkeys|]. by apply Hvals.
Defined.

Lemma only_mask_matters_witness :
  Demo.batch !! "mask" = Demo.target !! "mask" ∧
  compute_loss 5%Z Demo.batch (Demo.state Demo.two_metrics) =
    compute_loss 5%Z Demo.target (Demo.state Demo.two_metrics) ∧
  compute_metrics 5%Z Demo.batch (Demo.state Demo.two_metrics) =
    compute_metrics 5%Z Demo.target (Demo.state Demo.two_metrics).
Proof.
  split; [reflexivity|].
  apply (only_mask_matters (Demo.state Demo.two_metrics) 5%Z
           Demo.batch Demo.target).
  reflexivity.
Defined.

Lemma predict_ignores_other_entries_witness :
  (∀ k, k ∈ inputs (self (Demo.state [])) →
        store (Demo.state []) 0 !! k = store (Demo.state []) 1 !! k) ∧
  (predict 0 (Demo.state [])).1 = (predict 1 (Demo.state [])).1.
Proof.
  set (σ := Demo.state []).
  assert (∀ k, k ∈ inputs (self σ) → store σ 0 !! k = store σ 1 !! k) as Hagree.
  { intros k ->%list_elem_of_singleton. reflexivity. }
  split; [exact Hagree|].
  exact (proj1 (predict_ignores_other_entries σ σ 0 1 eq_refl Hagree)).
Defined.

Lemma predict_keeps_batch_witness :
  0 < next (Demo.state []) ∧
  store (predict 0 (Demo.state [])).2 0 = Demo.batch.
Proof.
  assert (0 < next (Demo.state [])) as Hlt by (simpl; lia).
  split; [exact Hlt|].
  exact (predict_keeps_batch (Demo.state []) 0 Hlt).
Defined.

(** C5, as stated, fails for [compute_metrics]: with no metric at all the
    subscript is never evaluated, and a target without ['mask'] gets the
    empty dictionary back. *)
Lemma compute_metrics_without_metrics_or_mask :
  (compute_metrics 0%Z (∅ : gmap string Z) (Demo.state [])).1 = Ok [] ∧
  ¬ (fails (compute_metrics 0%Z (∅ : gmap string Z) (Demo.state [])).1 ↔
       (∅ : gmap string Z) !! "mask" = None ∨
       ∃ mask, (∅ : gmap string Z) !! "mask" = Some mask ∧
         ∃ name metric,
           (name, metric) ∈ PyDict.items (metrics (self (Demo.state []))) ∧
           fails (metric 0%Z mask)).
Proof.
  split; [reflexivity|].
  intros [_ Hfails]. apply Hfails. by left.
Qed.


(** A metric that raises: the exception comes out of [compute_metrics] as
    it is, and the metrics after it are not called. *)
Example compute_metrics_raises :
  (compute_metrics 6%Z {[ "mask" := 0%Z ]} (Demo.state Demo.two_metrics)).1 =
    Raise (Raised "empty target").
Proof. by vm_compute. Qed.

(** ** Further properties of the methods *)

(** *** The dictionary that the comprehension builds *)

Section comprehension_result.
Context `{F : Framework Tensor Device Model HVal E}.
Implicit Types (y_hat mask : Tensor) (y : gmap string Tensor).
Implicit Types (its : list (string * criterion Tensor E)).
Implicit Types (acc r : dict Tensor).

Lemma keys_setitem {V} k (v : V) (d : dict V) :
  PyDict.keys (PyDict.setitem k v d) =
    if decide (k ∈ PyDict.keys d) then PyDict.keys d else PyDict.keys d ++ [k].
Proof.
  unfold PyDict.keys. induction d as [|[k' v'] d IH].
  - destruct (decide (k ∈ ([] : list (string * V)).*1)) as [Hin|_]; [|done].
    by apply elem_of_nil in Hin.
  - cbn [PyDict.setitem]. destruct (decide (k = k')) as [->|Hne].
    + destruct (decide (k' ∈ ((k', v') :: d).*1)) as [_|Hout]; [done|].
      exfalso. apply Hout. rewrite fmap_cons. apply list_elem_of_here.
    + rewrite !fmap_cons, IH. cbn [fst].
      destruct (decide (k ∈ d.*1)) as [Hin|Hout].
      * destruct (decide (k ∈ k' :: d.*1)) as [_|Hout']; [done|].
        exfalso. apply Hout'. by apply list_elem_of_further.
      * destruct (decide (k ∈ k' :: d.*1)) as [Hin'|_]; [|done].
        by apply elem_of_cons in Hin' as [?|?].
Qed.

Lemma setitem_wf {V} k (v : V) (d : dict V) :
  PyDict.wf d → PyDict.wf (PyDict.setitem k v d).
Proof.
  unfold PyDict.wf. intros Hd. rewrite keys_setitem.
  destruct (decide (k ∈ PyDict.keys d)) as [Hin|Hout]; [done|].
  apply NoDup_app. split; [done|]. split; [|apply NoDup_singleton].
  by intros k' Hk' ->%list_elem_of_singleton.
Qed.

Lemma metrics_comprehension_wf y_hat y its acc r :
  PyDict.wf acc →
  metrics_comprehension y_hat y its acc = Ok r → PyDict.wf r.
Proof.
  revert acc. induction its as [|[name metric] its IH]; intros acc Hacc.
  - simpl. by intros [= <-].
  - simpl. destruct (subscript y "mask") as [mask|x]; [|done]. simpl.
    destruct (metric y_hat mask) as [v|x]; [|done]. simpl.
    apply IH. by apply setitem_wf.
Qed.

Lemma metrics_comprehension_length y_hat y its acc r :
  NoDup (PyDict.keys acc ++ PyDict.keys its) →
  metrics_comprehension y_hat y its acc = Ok r →
  length r = length acc + length its.
Proof.
  revert acc. induction its as [|[name metric] its IH]; intros acc Hnd.
  - simpl. intros [= <-]. lia.
  - simpl. destruct (subscript y "mask") as [mask|x]; [|done]. simpl.
    destruct (metric y_hat mask) as [v|x]; [|done]. simpl.
    assert (name ∉ PyDict.keys acc) as Hnew.
    { apply NoDup_app in Hnd as (_ & Hdisj & _). intros Hin.
      apply (Hdisj _ Hin). apply list_elem_of_here. }
    rewrite (PyDictFacts.setitem_new _ _ _ Hnew). intros Hr.
    rewrite (IH (acc ++ [(name, v)])); [rewrite length_app; simpl; lia| |done].
    unfold PyDict.keys in *. rewrite fmap_app. simpl. by rewrite <-app_assoc.
Qed.

End comprehension_result.

(** *** Exceptions, repetition and the store *)

Section more_properties.
Context `{F : Framework Tensor Device Model HVal E}.
Implicit Types (σ : State Tensor Device Model HVal E).
Implicit Types (t : Task Tensor Device Model HVal E).
Implicit Types (y_hat mask : Tensor) (y : gmap string Tensor) (batch : loc).

Lemma inference_spec_eval (m : bool) t (b : gmap string Tensor) :
  inference_spec (set_training m t) b = inference_spec t b.
Proof.
  unfold inference_spec, run_model. by rewrite set_training_last.
Qed.

Lemma model_input_lookup_raw t (b : gmap string Tensor) k :
  move_to_device t (filter_inputs t b) !! k =
    if decide (k ∈ inputs t) then (λ v, to v (device t)) <$> b !! k else None.
Proof.
  unfold move_to_device, filter_inputs.
  rewrite lookup_fmap, map_lookup_filter.
  destruct (b !! k) as [v|]; simpl; [|by destruct (decide _)].
  destruct (decide (k ∈ inputs t)) as [Hin|Hout].
  - by rewrite option_guard_True.
  - by rewrite option_guard_False.
Qed.

(** X1. The metrics are called in the order of [self.metrics], and the
    first one that raises ends [compute_metrics]: its exception comes out,
    whatever the metrics after it would do. *)
Theorem compute_metrics_first_raise σ y_hat y mask
    (its1 its2 : list (string * criterion Tensor E)) name metric x :
  metrics (self σ) = its1 ++ (name, metric) :: its2 →
  y !! "mask" = Some mask →
  (∀ it, it ∈ its1 → ∃ v, it.2 y_hat mask = Ok v) →
  metric y_hat mask = Raise x →
  compute_metrics y_hat y σ = (Raise x, σ).
Proof.
  intros Hms Hm Hall Hx. rewrite compute_metrics_run, Hms. f_equal.
  apply metrics_comprehension_first_raise with mask; [done| |done].
  by apply Forall_forall.
Qed.

(** X2. A target without ['mask'] makes [compute_loss] raise
    [KeyError('mask')] before the loss function is called, and
    [compute_metrics] does the same as soon as there is a metric to
    compute: the functions' own exceptions never come first. *)
Theorem missing_mask_is_a_KeyError σ y_hat y :
  y !! "mask" = None →
  compute_loss y_hat y σ = (Raise (KeyError "mask"), σ) ∧
  (metrics (self σ) ≠ [] →
   compute_metrics y_hat y σ = (Raise (KeyError "mask"), σ)).
Proof.
  intros Hm. rewrite compute_loss_run, compute_metrics_run, Hm.
  split; [done|]. intros Hne.
  rewrite (metrics_comprehension_no_mask _ _ _ _ Hm).
  by destruct (metrics (self σ)).
Qed.

(** X4. The dictionary that [predict] hands to the model, key by key: a
    key of [self.inputs] is bound as in the batch, to the tensor moved to
    the task's device, and is absent if the batch does not have it; any
    other key is absent. *)
Theorem model_input_lookup σ batch k :
  store (predict batch σ).2 (next σ) !! k =
    if decide (k ∈ inputs (self σ))
    then (λ v, to v (device (self σ))) <$> store σ batch !! k
    else None.
Proof.
  rewrite predict_run. simpl. rewrite fn_lookup_insert.
  apply model_input_lookup_raw.
Qed.

(** X5. [predict] can be repeated: on the same batch, a second call gives
    the same result as the first and leaves the task as the first call
    left it. *)
Theorem predict_repeatable σ batch :
  batch < next σ →
  (predict batch (predict batch σ).2).1 = (predict batch σ).1 ∧
  self (predict batch (predict batch σ).2).2 = self (predict batch σ).2.
Proof.
  intros Hlt. rewrite (predict_run (predict batch σ).2), (predict_run σ).
  simpl. split; [|apply set_training_last].
  rewrite fn_lookup_insert_ne by lia. apply inference_spec_eval.
Qed.

(** X6. The result of [predict] does not depend on the mode the task and
    its child modules were last put in, [train()] or [eval()]: the model is
    always run in evaluation mode. *)
Theorem predict_mode_independent σ (b : bool) batch :
  (predict batch (set_self (set_training b (self σ)) σ)).1 =
  (predict batch σ).1.
Proof. rewrite !predict_run. simpl. apply inference_spec_eval. Qed.

(** X7. When the batch has none of the keys of [self.inputs], [predict]
    does not raise a [KeyError]: it runs the model on the empty
    dictionary. *)
Theorem predict_without_inputs σ batch :
  (∀ k, k ∈ inputs (self σ) → store σ batch !! k = None) →
  (predict batch σ).1 = sigmoid <$> forward (set_training false (self σ)) ∅ ∧
  store (predict batch σ).2 (next σ) = ∅.
Proof.
  intros Hnone.
  assert (move_to_device (self σ) (filter_inputs (self σ) (store σ batch)) = ∅)
    as Hempty.
  { apply map_eq. intros k. rewrite model_input_lookup_raw, lookup_empty.
    destruct (decide (k ∈ inputs (self σ))) as [Hin|]; [|done].
    by rewrite (Hnone k Hin). }
  rewrite predict_run. simpl. rewrite fn_lookup_insert.
  unfold inference_spec, apply_sigmoid, run_model. by rewrite Hempty.
Qed.

(** X8. [predict] creates one dictionary, the one for the model, and
    changes no other: every dictionary that existed holds the same
    entries afterwards. *)
Theorem predict_store_footprint σ batch (l : loc) :
  l < next σ →
  store (predict batch σ).2 l = store σ l ∧
  next (predict batch σ).2 = S (next σ).
Proof.
  intros Hlt. rewrite predict_run. simpl. split; [|done].
  apply fn_lookup_insert_ne. lia.
Qed.

(** X9. What [compute_metrics] returns is a dictionary: no name is bound
    twice, and there is one entry per metric of [self.metrics]. *)
Theorem compute_metrics_result_wf σ y_hat y (r : dict Tensor) :
  PyDict.wf (metrics (self σ)) →
  (compute_metrics y_hat y σ).1 = Ok r →
  PyDict.wf r ∧ length r = length (metrics (self σ)).
Proof.
  intros Hwf. rewrite compute_metrics_run. simpl. intros Hr. split.
  - apply (metrics_comprehension_wf y_hat y (metrics (self σ)) [] r);
      [apply NoDup_nil_2 | done].
  - by rewrite (metrics_comprehension_length y_hat y _ [] r Hwf Hr).
Qed.

(** X11. A metric that is the loss function reports the loss: when
    [self.metrics] binds a name to [self.loss_fn] and [compute_metrics]
    returns, [compute_loss] returns too, the value under that name. *)
Theorem metric_that_is_the_loss σ y_hat y name (r : dict Tensor) :
  PyDict.wf (metrics (self σ)) →
  PyDict.getitem name (metrics (self σ)) = Some (loss_fn (self σ)) →
  (compute_metrics y_hat y σ).1 = Ok r →
  ∃ v, (compute_loss y_hat y σ).1 = Ok v ∧ PyDict.getitem name r = Some v.
Proof.
  intros Hwf Hget. rewrite compute_metrics_run, compute_loss_run. simpl.
  destruct (y !! "mask") as [mask|] eqn:Hm.
  - intros Hr.
    destruct (metrics_comprehension_Ok_inv y_hat y mask _ [] r Hm Hwf Hr)
      as (vs & -> & Hvs).
    by apply (metric_items_getitem y_hat mask (metrics (self σ))).
  - rewrite (metrics_comprehension_no_mask _ _ _ _ Hm).
    destruct (metrics (self σ)) as [|it its]; [done|]. intros Hr.
    discriminate Hr.
Qed.

End more_properties.

(** *** On the small framework *)

Lemma compute_metrics_first_raise_witness :
  compute_metrics 6%Z ({[ "mask" := 0%Z ]} : gmap string Z)
    (Demo.state [("diff", Demo.difference); ("iou", Demo.ratio);
                 ("late", Demo.difference)]) =
  (Raise (Raised "empty target"),
   Demo.state [("diff", Demo.difference); ("iou", Demo.ratio);
               ("late", Demo.difference)]).
Proof.
  apply (compute_metrics_first_raise _ 6%Z _ 0%Z
           [("diff", Demo.difference)] [("late", Demo.difference)]
           "iou" Demo.ratio).
  - reflexivity.
  - reflexivity.
  - intros it [->|Hin%elem_of_nil]%elem_of_cons; [by eexists | done].
  - reflexivity.
Defined.

Lemma missing_mask_is_a_KeyError_witness :
  ({[ "label" := 2%Z ]} : gmap string Z) !! "mask" = None ∧
  compute_loss 6%Z ({[ "label" := 2%Z ]} : gmap string Z)
    (Demo.state Demo.two_metrics) =
    (Raise (KeyError "mask"), Demo.state Demo.two_metrics) ∧
  compute_metrics 6%Z ({[ "label" := 2%Z ]} : gmap string Z)
    (Demo.state Demo.two_metrics) =
    (Raise (KeyError "mask"), Demo.state Demo.two_metrics).
Proof.
  assert (({[ "label" := 2%Z ]} : gmap string Z) !! "mask" = None) as Hm
    by reflexivity.
  split; [exact Hm|].
  destruct (missing_mask_is_a_KeyError (Demo.state Demo.two_metrics) 6%Z _ Hm)
    as [Hloss Hmetrics].
  split; [exact Hloss|]. apply Hmetrics. discriminate.
Defined.

Lemma predict_repeatable_witness :
  0 < next (Demo.state []) ∧
  (predict 0 (predict 0 (Demo.state [])).2).1 = (predict 0 (Demo.state [])).1.
Proof.
  assert (0 < next (Demo.state [])) as Hlt by (simpl; lia).
  split; [exact Hlt|].
  exact (proj1 (predict_repeatable (Demo.state []) 0 Hlt)).
Defined.

Lemma predict_without_inputs_witness :
  (predict 0 (mkState (Demo.task []) true (λ _, {[ "mask" := 2%Z ]}) 1)).1 =
    Raise (Raised "no image").
Proof.
  refine (eq_trans (proj1 (predict_without_inputs
            (mkState (Demo.task []) true (λ _, {[ "mask" := 2%Z ]}) 1) 0 _)) _).
  - intros k ->%list_elem_of_singleton. reflexivity.
  - reflexivity.
Defined.

Lemma predict_store_footprint_witness :
  1 < next (Demo.state []) ∧
  store (predict 0 (Demo.state [])).2 1 = Demo.other_batch ∧
  next (predict 0 (Demo.state [])).2 = 3.
Proof.
  assert (1 < next (Demo.state [])) as Hlt by (simpl; lia).
  split; [exact Hlt|].
  exact (predict_store_footprint (Demo.state []) 0 1 Hlt).
Defined.

Lemma compute_metrics_result_wf_witness :
  PyDict.wf [("iou", 3%Z); ("diff", 4%Z)] ∧
  length [("iou", 3%Z); ("diff", 4%Z)] = 2.
Proof.
  apply (compute_metrics_result_wf (Demo.state Demo.two_metrics) 6%Z Demo.batch).
  - unfold PyDict.wf. simpl. apply (bool_decide_unpack _). by vm_compute.
  - by vm_compute.
Defined.

Lemma metric_that_is_the_loss_witness :
  ∃ v, (compute_loss 6%Z Demo.batch (Demo.state Demo.two_metrics)).1 = Ok v ∧
       PyDict.getitem "diff" [("iou", 3%Z); ("diff", 4%Z)] = Some v.
Proof.
  apply (metric_that_is_the_loss (Demo.state Demo.two_metrics) 6%Z Demo.batch).
  - unfold PyDict.wf. simpl. apply (bool_decide_unpack _). by vm_compute.
  - reflexivity.
  - by vm_compute.
Defined.
